(** * mongo-pagination: a shallow embedding of [src/lib/mongoosePagination.ts]

    The TypeScript module builds a MongoDB aggregation pipeline out of a
    record of pagination options, runs it once through the Mongoose model and
    turns the answer into a page of records with its metadata.  This file
    embeds the four functions of the module ([createDateFilter],
    [processFilters], [createGlobalSearchQuery], [mongoosePagination]) and the
    part of the JavaScript language they rely on, and then states and proves
    the properties of the specification about them. *)

From Stdlib Require Import ZArith QArith Qround Qabs Qpower String Ascii List Lia.
From stdpp Require Import gmap strings list fin_maps.

Local Open Scope Z_scope.
Set Warnings "-register-all".

(** ** JavaScript numbers *)

(** A JavaScript [number] is an IEEE double.  The embedding keeps the three
    kinds of value the code can meet: [NaN], the two infinities and the finite
    values, which are represented by rationals.  [Number] gives the double
    nearest to the literal it reads ([round_double]).  The arithmetic
    operations are those of the rationals: they are the double operations
    whenever the operands and the exact result are integers of magnitude at
    most 2^53 (page numbers, page sizes, document counts, time values), and
    the statements on [skip] are given for that range.  The sign of zero is
    not represented ([-0] and [+0] compare equal in JavaScript). *)
Inductive number : Type :=
  | NaN : number
  | Infinity (negative : bool) : number
  | Fin (q : Q) : number.

Module JS.

Definition of_Z (z : Z) : number := Fin (inject_Z z).

Definition Qneg (q : Q) : bool :=
  match Qcompare q 0 with Lt => true | _ => false end.

Definition Qzero (q : Q) : bool :=
  match Qcompare q 0 with Eq => true | _ => false end.

(** Unary minus. *)
Definition neg (a : number) : number :=
  match a with
  | NaN => NaN
  | Infinity s => Infinity (negb s)
  | Fin q => Fin (Qopp q)
  end.

(** [a + b]. *)
Definition add (a b : number) : number :=
  match a, b with
  | NaN, _ | _, NaN => NaN
  | Infinity s, Infinity t => if Bool.eqb s t then Infinity s else NaN
  | Infinity s, Fin _ => Infinity s
  | Fin _, Infinity t => Infinity t
  | Fin x, Fin y => Fin (Qplus x y)
  end.

(** [a - b]. *)
Definition sub (a b : number) : number :=
  match a, b with
  | NaN, _ | _, NaN => NaN
  | Infinity s, Infinity t => if Bool.eqb s t then NaN else Infinity s
  | Infinity s, Fin _ => Infinity s
  | Fin _, Infinity t => Infinity (negb t)
  | Fin x, Fin y => Fin (Qminus x y)
  end.

(** [a * b]. *)
Definition mul (a b : number) : number :=
  match a, b with
  | NaN, _ | _, NaN => NaN
  | Infinity s, Infinity t => Infinity (xorb s t)
  | Infinity s, Fin y => if Qzero y then NaN else Infinity (xorb s (Qneg y))
  | Fin x, Infinity t => if Qzero x then NaN else Infinity (xorb (Qneg x) t)
  | Fin x, Fin y => Fin (Qmult x y)
  end.

(** [a / b]; a finite non-zero number divided by zero is an infinity and
    [0 / 0] is [NaN]. *)
Definition div (a b : number) : number :=
  match a, b with
  | NaN, _ | _, NaN => NaN
  | Infinity _, Infinity _ => NaN
  | Infinity s, Fin y => Infinity (xorb s (Qneg y))
  | Fin _, Infinity _ => Fin 0
  | Fin x, Fin y =>
      if Qzero y then (if Qzero x then NaN else Infinity (Qneg x))
      else Fin (Qdiv x y)
  end.

(** [a > b]; every comparison with [NaN] is false. *)
Definition gt (a b : number) : bool :=
  match a, b with
  | NaN, _ | _, NaN => false
  | Infinity s, Infinity t => negb s && t
  | Infinity s, Fin _ => negb s
  | Fin _, Infinity t => t
  | Fin x, Fin y => match Qcompare x y with Gt => true | _ => false end
  end.

(** [a == b] on numbers; [NaN] is equal to nothing. *)
Definition eq (a b : number) : bool :=
  match a, b with
  | Infinity s, Infinity t => Bool.eqb s t
  | Fin x, Fin y => Qeq_bool x y
  | _, _ => false
  end.

(** [Math.ceil]. *)
Definition Math_ceil (a : number) : number :=
  match a with
  | Fin q => of_Z (Qceiling q)
  | _ => a
  end.

(** The global [isNaN] applied to a number. *)
Definition isNaN (a : number) : bool :=
  match a with NaN => true | _ => false end.

(** *** Strings

    A JavaScript string is held as the bytes of its UTF-8 encoding, which is
    how a string literal of this file is read; [code_points] gives its
    characters.  Bytes that are not UTF-8 are read as U+FFFD. *)

Definition byte_value (c : ascii) : Z := Z.of_nat (nat_of_ascii c).

Definition continuation (c : ascii) : bool :=
  (128 <=? byte_value c) && (byte_value c <? 192).

Fixpoint code_points (l : list ascii) : list Z :=
  match l with
  | [] => []
  | b1 :: r1 =>
      let n1 := byte_value b1 in
      if n1 <? 128 then n1 :: code_points r1
      else
        match r1 with
        | [] => [65533]
        | b2 :: r2 =>
            if (192 <=? n1) && (n1 <? 224) && continuation b2
            then ((n1 - 192) * 64 + (byte_value b2 - 128)) :: code_points r2
            else
              match r2 with
              | [] => 65533 :: code_points r1
              | b3 :: r3 =>
                  if (224 <=? n1) && (n1 <? 240)
                     && continuation b2 && continuation b3
                  then ((n1 - 224) * 4096 + (byte_value b2 - 128) * 64
                        + (byte_value b3 - 128)) :: code_points r3
                  else
                    match r3 with
                    | [] => 65533 :: code_points r1
                    | b4 :: r4 =>
                        if (240 <=? n1) && (n1 <? 248) && continuation b2
                           && continuation b3 && continuation b4
                        then ((n1 - 240) * 262144 + (byte_value b2 - 128) * 4096
                              + (byte_value b3 - 128) * 64
                              + (byte_value b4 - 128)) :: code_points r4
                        else 65533 :: code_points r1
                    end
              end
        end
  end.

(** The characters of a string. *)
Definition chars (s : string) : list Z := code_points (list_ascii_of_string s).

(** *** Rounding to a double

    [round_double q] is the double nearest to the rational [q], ties going
    to the even significand: 53 bits of significand, exponents down to the
    subnormal numbers (multiples of 2^-1074), and an infinity from 2^1024
    on. *)

(** [a / b] rounded to the nearest integer, ties to even ([0 <= a],
    [0 < b]). *)
Definition round_half_even (a b : Z) : Z :=
  let q := a / b in
  match 2 * (a mod b) ?= b with
  | Lt => q
  | Gt => q + 1
  | Eq => if Z.even q then q else q + 1
  end.

(** The integer part of the binary logarithm of [n / d] ([0 < n],
    [0 < d]). *)
Definition floor_log2 (n d : Z) : Z :=
  let k := Z.log2 n - Z.log2 d in
  if (if 0 <=? k then d * 2 ^ k <=? n else d <=? n * 2 ^ (- k))
  then k else k - 1.

Definition round_double (q : Q) : number :=
  let n := Z.abs (Qnum q) in
  let d := Zpos (Qden q) in
  let negative := Qnum q <? 0 in
  if n =? 0 then Fin 0
  else
    let l := floor_log2 n d in
    if 1024 <=? l then Infinity negative
    else
      let e := Z.max (l - 52) (-1074) in
      let m :=
        if 0 <=? e then round_half_even n (d * 2 ^ e)
        else round_half_even (n * 2 ^ (- e)) d in
      let s := if negative then - m else m in
      if 0 <=? e then
        if 2 ^ 1024 <=? m * 2 ^ e then Infinity negative
        else Fin (inject_Z (s * 2 ^ e))
      else Fin (Qred (s # Z.to_pos (2 ^ (- e)))).

(** *** [Number(string)]

    The conversion of a string to a number (ECMAScript [StringToNumber]):
    white space and line terminators are trimmed, the empty string is [0],
    and the rest has to be a complete numeric literal, whose value is
    rounded to a double; otherwise the result is [NaN]. *)

(** [StrWhiteSpaceChar]: TAB, LF, VT, FF, CR, SP, U+00A0, U+1680,
    U+2000 to U+200A, U+2028, U+2029, U+202F, U+205F, U+3000, U+FEFF. *)
Definition is_white_space (c : Z) : bool :=
  (9 <=? c) && (c <=? 13) || (c =? 32) || (c =? 160) || (c =? 5760)
  || (8192 <=? c) && (c <=? 8202) || (c =? 8232) || (c =? 8233)
  || (c =? 8239) || (c =? 8287) || (c =? 12288) || (c =? 65279).

Fixpoint trim_start (l : list Z) : list Z :=
  match l with
  | c :: l' => if is_white_space c then trim_start l' else l
  | [] => []
  end.

Definition trim (l : list Z) : list Z :=
  rev (trim_start (rev (trim_start l))).

(** The code of an ASCII character. *)
Definition code (c : ascii) : Z := byte_value c.

(** The value of a digit in a radix up to 16. *)
Definition digit_value (radix : Z) (c : Z) : option Z :=
  let v :=
    if (48 <=? c) && (c <=? 57) then Some (c - 48)
    else if (97 <=? c) && (c <=? 102) then Some (c - 87)
    else if (65 <=? c) && (c <=? 70) then Some (c - 55)
    else None in
  match v with
  | Some d => if d <? radix then Some d else None
  | None => None
  end.

(** Reads the longest prefix of digits: its value, the number of digits
    read and what follows them. *)
Fixpoint read_digits (radix : Z) (l : list Z) (acc : Z) (count : Z)
  : Z * Z * list Z :=
  match l with
  | c :: l' =>
      match digit_value radix c with
      | Some d => read_digits radix l' (acc * radix + d) (count + 1)
      | None => (acc, count, l)
      end
  | [] => (acc, count, [])
  end.

(** A literal made of digits of [radix] only, and at least one. *)
Definition all_digits (radix : Z) (l : list Z) : number :=
  match read_digits radix l 0 0 with
  | (v, count, []) => if 0 <? count then round_double (inject_Z v) else NaN
  | _ => NaN
  end.

(** [ExponentPart]: [e] or [E], an optional sign, at least one digit. *)
Definition exponent_part (l : list Z) : option Z :=
  match l with
  | [] => Some 0
  | c :: l' =>
      if (c =? code "e") || (c =? code "E") then
        let '(sign, l'') :=
          match l' with
          | s :: r =>
              if s =? code "-" then (-1, r)
              else if s =? code "+" then (1, r) else (1, l')
          | [] => (1, l')
          end in
        match read_digits 10 l'' 0 0 with
        | (v, count, []) => if 0 <? count then Some (sign * v) else None
        | _ => None
        end
      else None
  end.

(** [StrUnsignedDecimalLiteral]. *)
Definition unsigned_decimal (l : list Z) : number :=
  if bool_decide (l = chars "Infinity") then Infinity false
  else
    let '(ip, ni, r1) := read_digits 10 l 0 0 in
    let '(fp, nf, r2) :=
      match r1 with
      | c :: r => if c =? code "." then read_digits 10 r 0 0 else (0, 0, r1)
      | [] => (0, 0, r1)
      end in
    if (ni + nf =? 0) then NaN
    else
      match exponent_part r2 with
      | Some e =>
          round_double (inject_Z (ip * 10 ^ nf + fp) * Qpower 10 (e - nf))
      | None => NaN
      end.

Definition StringToNumber (l : list Z) : number :=
  match trim l with
  | [] => of_Z 0
  | c :: r =>
      if c =? code "-" then neg (unsigned_decimal r)
      else if c =? code "+" then unsigned_decimal r
      else if c =? code "0" then
        match r with
        | x :: r' =>
            if (x =? code "x") || (x =? code "X") then all_digits 16 r'
            else if (x =? code "o") || (x =? code "O") then all_digits 8 r'
            else if (x =? code "b") || (x =? code "B") then all_digits 2 r'
            else unsigned_decimal (c :: r)
        | [] => unsigned_decimal (c :: r)
        end
      else unsigned_decimal (c :: r)
  end.

Definition Number (s : string) : number := StringToNumber (chars s).

End JS.

(** ** Dates *)

(** A [Date] object holds a time value: a number of milliseconds since the
    epoch, or [NaN] for an invalid date. *)
Record Date : Type := { getTime : number }.

Module JSDate.

(** [TimeClip]: a time value is an integer of magnitude at most 8.64e15. *)
Definition TimeClip (t : number) : number :=
  match t with
  | Fin q =>
      if Qle_bool (Qabs q) (inject_Z 8640000000000000)
      then JS.of_Z (if JS.Qneg q then Qceiling q else Qfloor q)
      else NaN
  | _ => NaN
  end.

(** [new Date(value)] for a number [value]. *)
Definition of_number (t : number) : Date := {| getTime := TimeClip t |}.

(** [new Date(s)] for a string [s], given the parser of date strings
    ([Date.parse], whose behaviour outside the ISO format is left to the
    implementation and which answers [NaN] for what it does not read). *)
Definition of_string (Date_parse : string -> number) (s : string) : Date :=
  {| getTime := Date_parse s |}.

End JSDate.

(** ** Query conditions *)

(** The values found under the keys of a MongoDB filter object: the
    conditions the module builds, and plain values a caller may give in the
    base filter. *)
Inductive Condition : Type :=
  | CBool (b : bool)
  | CNumber (n : number)
  | CString (s : string)
  | CRegex (regex options : string)
  | CDate (bounds : gmap string Date)
  | COr (alternatives : list (gmap string Condition)).

(** Truthiness of an optional string: [undefined] and the empty string are
    falsy. *)
Definition truthy (s : option string) : bool :=
  match s with
  | Some v => negb (String.eqb v "")
  | None => false
  end.

(** The type [DateRangeFilter] of the source. *)
Record DateRangeFilter : Type := { createdAt : option (gmap string Date) }.

(** Object spread [{ ...a, ...b }]: the properties of [b] win. *)
Definition spread {V : Type} (a b : gmap string V) : gmap string V := b ∪ a.

(** The own properties of a [DateRangeFilter], as the spread operator sees
    them. *)
Definition DateRangeFilter_props (f : DateRangeFilter) : gmap string Condition :=
  match createdAt f with
  | Some bounds => {[ "createdAt"%string := CDate bounds ]}
  | None => ∅
  end.

Section Filters.

Variable Date_parse : string -> number.

Definition createDateFilter (startDate endDate : option string)
    (searchBetweenDates : bool) : DateRangeFilter :=
  let dateFilter := {| createdAt := None |} in
  if negb (truthy startDate) && negb (truthy endDate) then dateFilter
  else
    let start :=
      if truthy startDate
      then JSDate.of_string Date_parse <$> startDate else None in
    let end_ :=
      if truthy endDate
      then JSDate.of_string Date_parse <$> endDate else None in
    let operators : string * string :=
      if searchBetweenDates then ("$gt", "$lt")%string
      else ("$gte", "$lte")%string in
    let dateFilter :=
      match end_ with
      | Some e =>
          let adjustedEndDate :=
            if searchBetweenDates then e
            else JSDate.of_number
                   (JS.add (getTime e) (JS.of_Z (24 * 60 * 60 * 1000))) in
          {| createdAt :=
               Some (spread (default ∅ (createdAt dateFilter))
                            {[ snd operators := adjustedEndDate ]}) |}
      | None => dateFilter
      end in
    match start with
    | Some s =>
        {| createdAt :=
             Some (spread (default ∅ (createdAt dateFilter))
                          {[ fst operators := s ]}) |}
    | None => dateFilter
    end.

End Filters.

(** The condition [processFilters] stores for a defined value. *)
Definition coerce (value : string) : Condition :=
  if (String.eqb value "true" || String.eqb value "false")%bool
  then CBool (String.eqb value "true")
  else if negb (JS.isNaN (JS.Number value)) then CNumber (JS.Number value)
  else CRegex value "i".

(** [o[key] = value] on an object that was created by [{}]: the assignment
    defines or updates the own property [key], except under the key
    [__proto__], which is an accessor of [Object.prototype]: its setter
    changes the prototype of [o] when the value is an object and does nothing
    otherwise, and [o] gets no own property.  The own properties are what a
    spread copies, so they are what the object is here. *)
Definition assign {V : Type} (key : string) (value : V) (o : gmap string V)
  : gmap string V :=
  if String.eqb key "__proto__" then o else <[ key := value ]> o.

(** [filters] is given by its entries in property order, as [Object.entries]
    lists them; a value of [None] is a property holding [undefined]. *)
Definition processFilters (filters : option (list (string * option string)))
  : gmap string Condition :=
  match filters with
  | None => ∅
  | Some entries =>
      fold_left
        (fun query '(key, value) =>
           match value with
           | None => query
           | Some v => assign key (coerce v) query
           end)
        entries ∅
  end.

Definition createGlobalSearchQuery (filters : option (list (string * option string)))
  : gmap string Condition :=
  match filters with
  | None => ∅
  | Some entries =>
      let globalConditions : list (gmap string Condition) :=
        map (fun '(key, value) => {[ key := CRegex (default ""%string value) "i" ]})
            (List.filter (fun '(_, value) => truthy value) entries) in
      if Nat.eqb (length globalConditions) 0 then ∅
      else {[ "$or"%string := COr globalConditions ]}
  end.

(** ** The aggregation pipeline *)

(** The stages of an aggregation pipeline.  [SOther] stands for any stage the
    module does not build itself and a caller may pass in [pipeline]. *)
Inductive PipelineStage : Type :=
  | SMatch (filter : gmap string Condition)
  | SSort (by_ : list (string * Z))
  | SSkip (n : number)
  | SLimit (n : number)
  | SProject (fields : gmap string bool)
  | SCount (field : string)
  | SFacet (facets : list (string * list PipelineStage))
  | SUnwind (path : string) (preserveNullAndEmptyArrays : bool)
  | SOther (name : string).

(** An error value, as thrown or as the reason of a rejected promise. *)
Record JsError : Type := { name : string; message : string }.

Section Pagination.

(** The document type [T] of the collection. *)
Variable T : Type.

(** What [Model.aggregate] answers for the pipeline of this module: rows
    of type [{ metadata?: { total: number }, data: T[] }]. *)
Record AggregateRow : Type := {
  row_metadata : option number;
  row_data : list T
}.

(** A Mongoose model, as far as the module uses it. *)
Record MongooseModel : Type := {
  aggregate : list PipelineStage -> JsError + list AggregateRow
}.

Record PaginationOptions : Type := {
  Model : MongooseModel;
  o_filter : option (gmap string Condition);
  o_max : option number;
  o_page : option number;
  o_sort : option bool;
  o_pipeline : option (list PipelineStage);
  o_extract : option (gmap string bool);
  o_startDate : option string;
  o_endDate : option string;
  o_searchBetweenDates : option bool;
  o_filters : option (list (string * option string));
  o_globalSearch : option bool
}.

Record Metadata : Type := {
  total : number;
  page : number;
  max : number;
  next : bool;
  previous : bool;
  totalPages : number
}.

Record PaginationResult : Type := {
  metadata : Metadata;
  data : list T
}.

(** *** Asynchronous computations

    An [async] function is a computation that may call the storage and
    ends with a value or with a rejection.  The state is the log of the
    pipelines sent to [Model.aggregate] so far. *)
Definition Async (A : Type) : Type :=
  list (list PipelineStage) -> (JsError + A) * list (list PipelineStage).

Definition resolve {A : Type} (a : A) : Async A := fun log => (inr a, log).

Definition await {A B : Type} (m : Async A) (k : A -> Async B) : Async B :=
  fun log =>
    match m log with
    | (inr a, log') => k a log'
    | (inl e, log') => (inl e, log')
    end.

(** [Model.aggregate(pipeline)]: one call to the storage, logged. *)
Definition Model_aggregate (M : MongooseModel) (p : list PipelineStage)
  : Async (list AggregateRow) :=
  fun log => (aggregate M p, log ++ [p]).

Variable Date_parse : string -> number.

(** *** [mongoosePagination]

    The constants of the function body are given as functions of the
    options, so that they can be named in statements. *)

Definition max_of (options : PaginationOptions) : number :=
  default (JS.of_Z 10) (o_max options).

Definition page_of (options : PaginationOptions) : number :=
  default (JS.of_Z 1) (o_page options).

Definition skip_of (options : PaginationOptions) : number :=
  JS.mul (JS.sub (page_of options) (JS.of_Z 1)) (max_of options).

Definition combinedFilter (options : PaginationOptions) : gmap string Condition :=
  spread
    (spread (default ∅ (o_filter options))
            (DateRangeFilter_props
               (createDateFilter Date_parse (o_startDate options) (o_endDate options)
                  (default false (o_searchBetweenDates options)))))
    (if default false (o_globalSearch options)
     then createGlobalSearchQuery (o_filters options)
     else processFilters (o_filters options)).

(** [Object.keys(extract).length > 0]. *)
Definition has_keys {V : Type} (o : gmap string V) : bool :=
  Nat.ltb 0 (length (map_to_list o).*1).

Definition aggregationPipeline (options : PaginationOptions) : list PipelineStage :=
  [SMatch (combinedFilter options)]
  ++ default [] (o_pipeline options)
  ++ [ SFacet
         [ ("metadata"%string, [SCount "total"]);
           ("data"%string,
             (if default true (o_sort options)
              then [SSort [("createdAt"%string, -1)]] else [])
             ++ [SSkip (skip_of options); SLimit (max_of options)]
             ++ (if has_keys (default ∅ (o_extract options))
                 then [SProject (default ∅ (o_extract options))] else [])) ];
       SUnwind "$metadata" true ].

Definition mongoosePagination (options : PaginationOptions)
  : Async PaginationResult :=
  let max := max_of options in
  let page := page_of options in
  let skip := skip_of options in
  await (Model_aggregate (Model options) (aggregationPipeline options))
    (fun rows =>
       let result := head rows in
       let total := default (JS.of_Z 0) (result ≫= row_metadata) in
       resolve
         {| metadata :=
              {| total := total;
                 page := page;
                 max := max;
                 next := JS.gt total (JS.add skip max);
                 previous := JS.gt page (JS.of_Z 1);
                 totalPages := JS.Math_ceil (JS.div total max) |};
            data := default [] (row_data <$> result) |}).

End Pagination.

Arguments row_metadata {T} _.
Arguments row_data {T} _.
Arguments aggregate {T} _ _.
Arguments Model {T} _.
Arguments o_filter {T} _.
Arguments o_max {T} _.
Arguments o_page {T} _.
Arguments o_sort {T} _.
Arguments o_pipeline {T} _.
Arguments o_extract {T} _.
Arguments o_startDate {T} _.
Arguments o_endDate {T} _.
Arguments o_searchBetweenDates {T} _.
Arguments o_filters {T} _.
Arguments o_globalSearch {T} _.
Arguments metadata {T} _.
Arguments data {T} _.
Arguments max_of {T} _.
Arguments page_of {T} _.
Arguments skip_of {T} _.
Arguments combinedFilter {T} _ _.
Arguments aggregationPipeline {T} _ _.
Arguments mongoosePagination {T} _ _ _.

(** ** The storage engine *)

(** Modelled from the spec: the document storage engine is an external
    collaborator of the module and is not part of the repository.  The
    specification assumes that it supports an aggregation pipeline with
    match, sort, skip, limit, project and facet semantics, and that it takes
    an ordered list of stages (match, custom, facet with named sub-pipelines,
    sort, skip, limit, project, unwind tolerant of a missing key) and returns
    a single result object with a count and an ordered list of records.  The
    engine below reads the pipelines of that shape: a list of stages that map
    documents to documents, ended by the facet of a count and a data
    sub-pipeline and by the unwind of the count.  What a filter matches, how
    documents compare for a sort, what a projection keeps and what a custom
    stage does are parameters. *)
Section Engine.

Variable T : Type.
Variable matches : gmap string Condition -> T -> bool.
Variable sort_le : list (string * Z) -> T -> T -> bool.
Variable project : gmap string bool -> T -> T.
Variable other : string -> list T -> JsError + list T.

Fixpoint insert_sorted (le : T -> T -> bool) (x : T) (l : list T) : list T :=
  match l with
  | [] => [x]
  | y :: l' => if le x y then x :: l else y :: insert_sorted le x l'
  end.

Definition sort_documents (le : T -> T -> bool) (l : list T) : list T :=
  foldr (insert_sorted le) [] l.

Definition engine_error (msg : string) : JsError :=
  {| name := "MongoServerError"; message := msg |}.

Definition is_integer (q : Q) : bool := Qeq_bool q (inject_Z (Qfloor q)).

(** A stage that maps a list of documents to a list of documents.  The
    engine refuses a skip that is not a non-negative integer and a limit
    that is not a positive integer. *)
Definition run_stage (stage : PipelineStage) (docs : list T) : JsError + list T :=
  match stage with
  | SMatch f => inr (List.filter (matches f) docs)
  | SSort by_ => inr (sort_documents (sort_le by_) docs)
  | SSkip (Fin q) =>
      if is_integer q && (0 <=? Qfloor q)
      then inr (drop (Z.to_nat (Qfloor q)) docs)
      else inl (engine_error "invalid argument to $skip")
  | SSkip _ => inl (engine_error "invalid argument to $skip")
  | SLimit (Fin q) =>
      if is_integer q && (0 <? Qfloor q)
      then inr (take (Z.to_nat (Qfloor q)) docs)
      else inl (engine_error "the limit must be positive")
  | SLimit _ => inl (engine_error "the limit must be positive")
  | SProject fields => inr (map (project fields) docs)
  | SOther stage_name => other stage_name docs
  | SCount _ | SFacet _ | SUnwind _ _ =>
      inl (engine_error "stage outside the modelled fragment")
  end.

Fixpoint run_stages (stages : list PipelineStage) (docs : list T)
  : JsError + list T :=
  match stages with
  | [] => inr docs
  | stage :: rest =>
      match run_stage stage docs with
      | inr docs' => run_stages rest docs'
      | inl e => inl e
      end
  end.

(** Recognises [prefix ++ [facet of count and data; unwind of the count]]
    and gives the prefix, the data sub-pipeline and the flag of the
    unwind. *)
Fixpoint split_facet (p : list PipelineStage)
  : option (list PipelineStage * list PipelineStage * bool) :=
  match p with
  | [] => None
  | stage :: rest =>
      match stage, rest with
      | SFacet [(m, [SCount c]); (d, stages)], [SUnwind path preserve] =>
          if (String.eqb m "metadata" && String.eqb c "total"
              && String.eqb d "data" && String.eqb path "$metadata")%bool
          then Some ([], stages, preserve)
          else None
      | _, _ =>
          match split_facet rest with
          | Some (prefix, stages, preserve) => Some (stage :: prefix, stages, preserve)
          | None => None
          end
      end
  end.

(** [$count] gives no document on an empty input, and one document with
    the number of its input documents otherwise. *)
Definition run_count (docs : list T) : list number :=
  match docs with
  | [] => []
  | _ => [JS.of_Z (Z.of_nat (length docs))]
  end.

(** [$unwind] of the array [counts] under [metadata]: one row per element;
    on an empty array the row is kept without the field when
    [preserveNullAndEmptyArrays] is set, and dropped otherwise. *)
Definition run_unwind (preserve : bool) (counts : list number) (records : list T)
  : list (AggregateRow T) :=
  match counts with
  | [] =>
      if preserve then [{| row_metadata := None; row_data := records |}] else []
  | _ =>
      map (fun c => {| row_metadata := Some c; row_data := records |}) counts
  end.

Definition engine_aggregate (collection : list T) (p : list PipelineStage)
  : JsError + list (AggregateRow T) :=
  match split_facet p with
  | None => inl (engine_error "stage outside the modelled fragment")
  | Some (prefix, stages, preserve) =>
      match run_stages prefix collection with
      | inl e => inl e
      | inr docs =>
          match run_stages stages docs with
          | inl e => inl e
          | inr records => inr (run_unwind preserve (run_count docs) records)
          end
      end
  end.

(** A model over a collection held by the engine. *)
Definition collection_model (collection : list T) : MongooseModel T :=
  {| aggregate := engine_aggregate collection |}.

End Engine.

(** ** Requests of the test suite *)

(** [mongoosePagination({ Model })]: every option is left to its default. *)
Definition default_request {T : Type} (M : MongooseModel T) : PaginationOptions T :=
  {| Model := M; o_filter := None; o_max := None; o_page := None;
     o_sort := None; o_pipeline := None; o_extract := None;
     o_startDate := None; o_endDate := None; o_searchBetweenDates := None;
     o_filters := None; o_globalSearch := None |}.

(** [mongoosePagination({ Model, page, max })]. *)
Definition page_request {T : Type} (M : MongooseModel T) (page max : option number)
  : PaginationOptions T :=
  {| Model := M; o_filter := None; o_max := max; o_page := page;
     o_sort := None; o_pipeline := None; o_extract := None;
     o_startDate := None; o_endDate := None; o_searchBetweenDates := None;
     o_filters := None; o_globalSearch := None |}.

(** [mongoosePagination({ Model, filters, globalSearch, startDate, endDate })]. *)
Definition filter_request {T : Type} (M : MongooseModel T)
    (filters : option (list (string * option string))) (globalSearch : option bool)
    (startDate endDate : option string) : PaginationOptions T :=
  {| Model := M; o_filter := None; o_max := None; o_page := None;
     o_sort := None; o_pipeline := None; o_extract := None;
     o_startDate := startDate; o_endDate := endDate;
     o_searchBetweenDates := None;
     o_filters := filters; o_globalSearch := globalSearch |}.

(** A storage that answers the same rows to every pipeline. *)
Definition fixed_model {T : Type} (rows : list (AggregateRow T)) : MongooseModel T :=
  {| aggregate := fun _ => inr rows |}.

(** A date parser that reads nothing. *)
Definition no_date : string -> number := fun _ => NaN.

(** A collection of numbered documents on the engine: every filter matches
    every document, a sort puts the larger numbers first, a projection and a
    custom stage keep the documents as they are. *)
Definition numbered_model (collection : list nat) : MongooseModel nat :=
  collection_model nat (fun _ _ => true) (fun _ a b => Nat.leb b a)
    (fun _ d => d) (fun _ docs => inr docs) collection.

(** [{ ...options, page }]: the same request for another page. *)
Definition with_page {T : Type} (options : PaginationOptions T) (page : number)
  : PaginationOptions T :=
  {| Model := Model options; o_filter := o_filter options;
     o_max := o_max options; o_page := Some page;
     o_sort := o_sort options; o_pipeline := o_pipeline options;
     o_extract := o_extract options;
     o_startDate := o_startDate options; o_endDate := o_endDate options;
     o_searchBetweenDates := o_searchBetweenDates options;
     o_filters := o_filters options;
     o_globalSearch := o_globalSearch options |}.

(** A storage that rejects every pipeline with the same error. *)
Definition failing_model {T : Type} (e : JsError) : MongooseModel T :=
  {| aggregate := fun _ => inl e |}.

(** * Properties *)

(** ** Arithmetic of numbers on the integers *)

Section NumberFacts.

Local Open Scope Z_scope.

Lemma sub_of_Z (a b : Z) : JS.sub (JS.of_Z a) (JS.of_Z b) = JS.of_Z (a - b).
Proof.
  unfold JS.sub, JS.of_Z, inject_Z, Qminus, Qplus, Qopp; simpl.
  do 2 f_equal. lia.
Qed.

Lemma add_of_Z (a b : Z) : JS.add (JS.of_Z a) (JS.of_Z b) = JS.of_Z (a + b).
Proof.
  unfold JS.add, JS.of_Z, inject_Z, Qplus; simpl.
  do 2 f_equal. lia.
Qed.

Lemma mul_of_Z (a b : Z) : JS.mul (JS.of_Z a) (JS.of_Z b) = JS.of_Z (a * b).
Proof. reflexivity. Qed.


Lemma of_Z_inj (a b : Z) : JS.of_Z a = JS.of_Z b -> a = b.
Proof. unfold JS.of_Z, inject_Z. congruence. Qed.




End NumberFacts.

(** ** Objects and strings *)

Section ObjectFacts.

Lemma lookup_spread {V : Type} (a b : gmap string V) (k : string) :
  spread a b !! k = match b !! k with Some v => Some v | None => a !! k end.
Proof.
  unfold spread. destruct (b !! k) as [v|] eqn:Hb.
  - now apply lookup_union_Some_l.
  - now rewrite lookup_union_r.
Qed.

Lemma has_keys_empty {V : Type} (o : gmap string V) :
  has_keys o = false <-> o = ∅.
Proof.
  unfold has_keys. rewrite length_fmap.
  destruct (map_to_list o) as [|x l] eqn:Hl; simpl.
  - split; [intros _; now apply map_to_list_empty_iff | reflexivity].
  - split; [discriminate|]. intros ->. now rewrite map_to_list_empty in Hl.
Qed.

Lemma truthy_Some (v : string) : truthy (Some v) = true <-> v <> ""%string.
Proof.
  simpl. destruct (String.eqb_spec v ""); simpl; split; congruence.
Qed.



Lemma lookup_assign_eq {V : Type} (k : string) (v : V) (o : gmap string V) :
  k <> "__proto__"%string -> assign k v o !! k = Some v.
Proof.
  intros Hk. unfold assign.
  destruct (String.eqb_spec k "__proto__"); [contradiction|].
  apply lookup_insert_eq.
Qed.

Lemma lookup_assign_ne {V : Type} (key k : string) (v : V) (o : gmap string V) :
  key <> k -> assign key v o !! k = o !! k.
Proof.
  intros Hne. unfold assign.
  destruct (String.eqb key "__proto__"); [reflexivity|].
  now apply lookup_insert_ne.
Qed.

Lemma lookup_assign_proto {V : Type} (v : V) (o : gmap string V) :
  assign "__proto__" v o = o.
Proof. reflexivity. Qed.

End ObjectFacts.

(** ** The field filter processor *)

Section ProcessFilters.

(** A key that no entry defines keeps what the accumulator holds. *)
Lemma fold_step_other (entries : list (string * option string))
    (query : gmap string Condition) (k : string) :
  (forall v, (k, Some v) ∉ entries) ->
  fold_left
    (fun query '(key, value) =>
       match value with
       | None => query
       | Some v => assign key (coerce v) query
       end)
    entries query !! k = query !! k.
Proof.
  revert query. induction entries as [|[key value] entries IH]; intros query Hk.
  - reflexivity.
  - simpl. rewrite IH.
    + destruct value as [v|]; [|reflexivity].
      apply lookup_assign_ne. intros ->. apply (Hk v). left.
    + intros v Hin. apply (Hk v). now right.
Qed.

(** The key [__proto__] never becomes a property. *)
Lemma fold_step_proto (entries : list (string * option string))
    (query : gmap string Condition) :
  fold_left
    (fun query '(key, value) =>
       match value with
       | None => query
       | Some v => assign key (coerce v) query
       end)
    entries query !! "__proto__"%string = query !! "__proto__"%string.
Proof.
  revert query. induction entries as [|[key value] entries IH]; intros query.
  - reflexivity.
  - simpl. rewrite IH. destruct value as [v|]; [|reflexivity].
    destruct (decide (key = "__proto__"%string)) as [->|Hne].
    + now rewrite lookup_assign_proto.
    + now apply lookup_assign_ne.
Qed.

(** With distinct keys, the entry of a key decides its condition. *)
Lemma fold_step_entry (entries : list (string * option string))
    (query : gmap string Condition) (k v : string) :
  NoDup entries.*1 -> (k, Some v) ∈ entries -> k <> "__proto__"%string ->
  fold_left
    (fun query '(key, value) =>
       match value with
       | None => query
       | Some v => assign key (coerce v) query
       end)
    entries query !! k = Some (coerce v).
Proof.
  revert query. induction entries as [|[key value] entries IH];
    intros query Hnd Hin Hk.
  - inversion Hin.
  - simpl in Hnd. apply NoDup_cons in Hnd as [Hfresh Hnd].
    apply elem_of_cons in Hin as [Heq|Hin].
    + injection Heq as <- <-. simpl.
      rewrite fold_step_other.
      * now apply lookup_assign_eq.
      * intros w Hw. apply Hfresh.
        apply list_elem_of_fmap. now exists (k, Some w).
    + simpl. now apply IH.
Qed.

Lemma processFilters_entry (entries : list (string * option string)) (k v : string) :
  NoDup entries.*1 -> (k, Some v) ∈ entries -> k <> "__proto__"%string ->
  processFilters (Some entries) !! k = Some (coerce v).
Proof. intros. unfold processFilters. now apply fold_step_entry. Qed.


End ProcessFilters.





(** ** The date-range filter builder *)

Lemma spread_empty {V : Type} (b : gmap string V) : spread ∅ b = b.
Proof. unfold spread. apply (right_id_L ∅ (∪)). Qed.

Lemma spread_singleton {V : Type} (a : gmap string V) (k : string) (v : V) :
  spread a {[ k := v ]} = <[ k := v ]> a.
Proof. unfold spread. symmetry. apply insert_union_singleton_l. Qed.

(** C4: the date filter by cases on which dates are supplied (a date is
    supplied when it is a non-empty string).  Neither: no condition.  Only
    [endDate]: [$lt] the parsed date in exclusive mode, [$lte] the parsed
    date plus 24 hours in inclusive mode.  Only [startDate]: [$gt] (exclusive)
    or [$gte] (inclusive) the parsed date.  Both: the two bounds in the one
    condition object of [createdAt]; and [createdAt] is the only key of the
    filter. *)
Theorem createDateFilter_cases (Date_parse : string -> number)
    (startDate endDate : option string) (searchBetweenDates : bool) :
  let lower := JSDate.of_string Date_parse (default ""%string startDate) in
  let upper := JSDate.of_string Date_parse (default ""%string endDate) in
  let next_day :=
    JSDate.of_number (JS.add (getTime upper) (JS.of_Z 86400000)) in
  let f := createDateFilter Date_parse startDate endDate searchBetweenDates in
  createdAt f =
    match truthy startDate, truthy endDate, searchBetweenDates with
    | false, false, _ => None
    | false, true, true => Some {[ "$lt"%string := upper ]}
    | false, true, false => Some {[ "$lte"%string := next_day ]}
    | true, false, true => Some {[ "$gt"%string := lower ]}
    | true, false, false => Some {[ "$gte"%string := lower ]}
    | true, true, true =>
        Some (<[ "$gt"%string := lower ]> {[ "$lt"%string := upper ]})
    | true, true, false =>
        Some (<[ "$gte"%string := lower ]> {[ "$lte"%string := next_day ]})
    end
  /\ DateRangeFilter_props f =
       match createdAt f with
       | Some bounds => {[ "createdAt"%string := CDate bounds ]}
       | None => ∅
       end.
Proof.
  split; [|reflexivity].
  unfold createDateFilter.
  destruct startDate as [s|], endDate as [e|]; simpl;
    repeat match goal with
      | |- context [String.eqb ?x ""] => destruct (String.eqb x "")
      end;
    destruct searchBetweenDates; simpl;
    rewrite ?spread_empty, ?spread_singleton; reflexivity.
Qed.

(** ** The global search query builder and the composed filter *)

Lemma global_conditions_omap (entries : list (string * option string)) :
  map (fun '(key, value) => {[ key := CRegex (default ""%string value) "i" ]})
      (List.filter (fun '(_, value) => truthy value) entries)
  = omap (fun '(key, value) =>
            match value with
            | Some v =>
                if String.eqb v "" then None
                else Some ({[ key := CRegex v "i" ]} : gmap string Condition)
            | None => None
            end) entries.
Proof.
  induction entries as [|[key [v|]] entries IH]; simpl; [reflexivity| |exact IH].
  destruct (String.eqb v ""); simpl; [exact IH | now rewrite IH].
Qed.

(** C6: under global search the query builder gives one condition [$or]
    that lists a pattern [{ $regex: value, $options: "i" }] for each entry
    whose value is a non-empty string, in order, and no condition at all when
    no entry qualifies; the composed filter is then the base filter, the date
    filter and this condition, without the conditions of [processFilters]. *)
Theorem global_search_replaces_field_filters (T : Type)
    (Date_parse : string -> number) (options : PaginationOptions T) :
  default false (o_globalSearch options) = true ->
  let patterns : list (gmap string Condition) :=
    omap (fun '(key, value) =>
            match value with
            | Some v =>
                if String.eqb v "" then None else Some {[ key := CRegex v "i" ]}
            | None => None
            end)
         (default [] (o_filters options)) in
  let or_condition : gmap string Condition :=
    match patterns with
    | [] => ∅
    | _ => {[ "$or"%string := COr patterns ]}
    end in
  createGlobalSearchQuery (o_filters options) = or_condition
  /\ combinedFilter Date_parse options =
       spread
         (spread (default ∅ (o_filter options))
            (DateRangeFilter_props
               (createDateFilter Date_parse (o_startDate options)
                  (o_endDate options)
                  (default false (o_searchBetweenDates options)))))
         or_condition.
Proof.
  intros Hglobal patterns or_condition.
  assert (createGlobalSearchQuery (o_filters options) = or_condition) as Hq.
  { unfold createGlobalSearchQuery, or_condition, patterns.
    destruct (o_filters options) as [entries|]; simpl; [|reflexivity].
    rewrite global_conditions_omap.
    now destruct (omap _ entries). }
  split; [exact Hq|].
  unfold combinedFilter. now rewrite Hglobal, Hq.
Qed.

Lemma global_search_replaces_field_filters_witness :
  createGlobalSearchQuery
    (Some [("title", Some "meeting"); ("description", Some "")]%string)
  = {[ "$or"%string := COr [ {[ "title"%string := CRegex "meeting" "i" ]} ] ]}
  /\ combinedFilter no_date
       (filter_request (fixed_model ([] : list (AggregateRow unit)))
          (Some [("title", Some "meeting"); ("description", Some "")]%string)
          (Some true) None None)
     = spread (spread ∅ ∅)
         {[ "$or"%string := COr [ {[ "title"%string := CRegex "meeting" "i" ]} ] ]}.
Proof.
  exact (global_search_replaces_field_filters unit no_date
           (filter_request (fixed_model [])
              (Some [("title", Some "meeting"); ("description", Some "")]%string)
              (Some true) None None)
           eq_refl).
Defined.

(** C9: the composed filter is a merge in which the last part wins: under
    each key the condition of the field filters (or of the global search)
    is taken if there is one, else the condition of the date filter, else
    that of the caller's base filter.  In particular a field filter named
    [createdAt] takes the place of the date condition. *)
Theorem combinedFilter_last_wins (T : Type) (Date_parse : string -> number)
    (options : PaginationOptions T) (key : string) :
  let base := default ∅ (o_filter options) in
  let dates :=
    DateRangeFilter_props
      (createDateFilter Date_parse (o_startDate options) (o_endDate options)
         (default false (o_searchBetweenDates options))) in
  let fields :=
    if default false (o_globalSearch options)
    then createGlobalSearchQuery (o_filters options)
    else processFilters (o_filters options) in
  combinedFilter Date_parse options !! key =
    match fields !! key with
    | Some c => Some c
    | None =>
        match dates !! key with
        | Some c => Some c
        | None => base !! key
        end
    end
  /\ forall (M : MongooseModel T) (value : string) (startDate endDate : option string),
       combinedFilter Date_parse
         (filter_request M (Some [("createdAt"%string, Some value)]) None
            startDate endDate) !! "createdAt"%string
       = Some (coerce value)
       /\ forall bounds, coerce value <> CDate bounds.
Proof.
  split.
  - unfold combinedFilter. now rewrite !lookup_spread.
  - intros M value startDate endDate. split.
    + unfold combinedFilter. simpl.
      rewrite lookup_spread. now rewrite lookup_assign_eq.
    + intros bounds. unfold coerce.
      repeat match goal with
        | |- context [if ?b then _ else _] => destruct b
        end; discriminate.
Qed.

(** ** The pagination orchestrator *)

Section Orchestrator.

Variable T : Type.
Variable Date_parse : string -> number.

(** One run of [mongoosePagination]: the pipeline goes to the storage once,
    a rejection of the storage is the rejection of the call, and rows are
    turned into the page. *)
Lemma mongoosePagination_run (options : PaginationOptions T)
    (log : list (list PipelineStage)) :
  mongoosePagination Date_parse options log =
    (match aggregate (Model options) (aggregationPipeline Date_parse options) with
     | inl e => inl e
     | inr rows =>
         let total := default (JS.of_Z 0) (head rows ≫= row_metadata) in
         inr {| metadata :=
                  {| total := total;
                     page := page_of options;
                     max := max_of options;
                     next := JS.gt total (JS.add (skip_of options) (max_of options));
                     previous := JS.gt (page_of options) (JS.of_Z 1);
                     totalPages := JS.Math_ceil (JS.div total (max_of options)) |};
                data := default [] (row_data <$> head rows) |}
     end,
     log ++ [aggregationPipeline Date_parse options]).
Proof.
  unfold mongoosePagination, await, Model_aggregate, resolve.
  now destruct (aggregate (Model options) _).
Qed.

Lemma skip_of_valid (options : PaginationOptions T) (p m : Z) :
  page_of options = JS.of_Z p -> max_of options = JS.of_Z m ->
  skip_of options = JS.of_Z ((p - 1) * m).
Proof.
  intros Hp Hm. unfold skip_of. now rewrite Hp, Hm, sub_of_Z, mul_of_Z.
Qed.

End Orchestrator.

Lemma last_two {A : Type} (l : list A) (x y : A) : last (l ++ [x; y]) = Some y.
Proof.
  induction l as [|a l IH]; [reflexivity|].
  destruct l; [reflexivity | exact IH].
Qed.

(** C1 (what the code does): no option is checked before the storage is
    called.  Whatever [page] and [max] are, the pipeline is sent to the
    storage exactly once, and the call is rejected only when the storage
    rejects it, with the error of the storage.  On the values of the test
    suite ([0], [-1] and [NaN] for [page], and for [max]) a storage that
    answers makes the call resolve to a page that echoes the value. *)
Theorem invalid_page_and_max_reach_storage :
  (forall (T : Type) (Date_parse : string -> number)
          (options : PaginationOptions T) (log : list (list PipelineStage)),
      snd (mongoosePagination Date_parse options log)
      = log ++ [aggregationPipeline Date_parse options]
      /\ match fst (mongoosePagination Date_parse options log),
               aggregate (Model options) (aggregationPipeline Date_parse options) with
         | inl e, inl e' => e = e'
         | inr _, inr _ => True
         | _, _ => False
         end)
  /\ Forall
       (fun v : number =>
          exists r : PaginationResult unit,
            mongoosePagination no_date
              (page_request (@fixed_model unit []) (Some v) None) []
            = (inr r, [aggregationPipeline no_date
                         (page_request (@fixed_model unit []) (Some v) None)])
            /\ page (metadata r) = v)
       [JS.of_Z 0; JS.of_Z (-1); NaN]
  /\ Forall
       (fun v : number =>
          exists r : PaginationResult unit,
            mongoosePagination no_date
              (page_request (@fixed_model unit []) None (Some v)) []
            = (inr r, [aggregationPipeline no_date
                         (page_request (@fixed_model unit []) None (Some v))])
            /\ max (metadata r) = v)
       [JS.of_Z 0; JS.of_Z (-1); NaN].
Proof.
  split; [|split].
  - intros T Date_parse options log. rewrite mongoosePagination_run. simpl.
    split; [reflexivity|].
    now destruct (aggregate (Model options) _).
  - repeat constructor; eexists; (split; [reflexivity|reflexivity]).
  - repeat constructor; eexists; (split; [reflexivity|reflexivity]).
Qed.

(** C7: the pipeline that is sent to the storage is, in this order, the
    match of the composed filter, the caller's stages as given, the facet
    and the unwind of the count.  The count sub-pipeline of the facet is
    [$count] alone, whatever the options; the data sub-pipeline is the sort
    by [createdAt] descending when [sort] is set, the skip, the limit to
    [max], and the projection when [extract] has a key. *)
Theorem aggregationPipeline_order (T : Type) (Date_parse : string -> number)
    (options : PaginationOptions T) (log : list (list PipelineStage)) :
  let extract := default ∅ (o_extract options) in
  let data_stages :=
    (if default true (o_sort options)
     then [SSort [("createdAt"%string, -1)]] else [])
    ++ [SSkip (skip_of options); SLimit (max_of options)]
    ++ (if decide (extract = ∅) then [] else [SProject extract]) in
  aggregationPipeline Date_parse options =
    SMatch (combinedFilter Date_parse options)
    :: default [] (o_pipeline options)
    ++ [ SFacet [ ("metadata"%string, [SCount "total"]);
                  ("data"%string, data_stages) ];
         SUnwind "$metadata" true ]
  /\ snd (mongoosePagination Date_parse options log)
     = log ++ [aggregationPipeline Date_parse options].
Proof.
  intros extract data_stages. split.
  - unfold aggregationPipeline, data_stages. simpl. do 6 f_equal.
    fold extract. destruct (decide (extract = ∅)) as [He|He].
    + apply has_keys_empty in He. now rewrite He.
    + destruct (has_keys extract) eqn:Hk; [reflexivity|].
      now apply has_keys_empty in Hk.
  - now rewrite mongoosePagination_run.
Qed.



(** C8: when the answer of the storage has no count (no document matched)
    and no record, the call is not rejected and resolves to a whole page with
    [total = 0], [totalPages = 0] and no record, for every [max] that is a
    number other than 0; the unwind that ends the pipeline keeps the row
    whose count is missing ([preserveNullAndEmptyArrays]). *)
Theorem zero_matches_page (T : Type) (Date_parse : string -> number)
    (options : PaginationOptions T) (log : list (list PipelineStage))
    (rows : list (AggregateRow T)) :
  aggregate (Model options) (aggregationPipeline Date_parse options) = inr rows ->
  head rows ≫= row_metadata = None ->
  default [] (row_data <$> head rows) = [] ->
  JS.isNaN (max_of options) = false ->
  JS.eq (max_of options) (JS.of_Z 0) = false ->
  mongoosePagination Date_parse options log
  = (inr {| metadata :=
              {| total := JS.of_Z 0;
                 page := page_of options;
                 max := max_of options;
                 next := JS.gt (JS.of_Z 0) (JS.add (skip_of options) (max_of options));
                 previous := JS.gt (page_of options) (JS.of_Z 1);
                 totalPages := JS.of_Z 0 |};
            data := [] |},
     log ++ [aggregationPipeline Date_parse options])
  /\ last (aggregationPipeline Date_parse options) = Some (SUnwind "$metadata" true).
Proof.
  intros Hrows Hcount Hdata Hnan Hzero. split.
  - rewrite mongoosePagination_run, Hrows. cbv zeta. rewrite Hcount, Hdata. cbn.
    do 4 f_equal.
    destruct (max_of options) as [|s|q]; [discriminate|reflexivity|].
    cbn in Hzero. cbn.
    replace (JS.Qzero q) with false.
    + reflexivity.
    + symmetry. unfold JS.Qzero. apply Qeq_bool_neq in Hzero.
      destruct (Qcompare_spec q 0) as [Heq| |]; try reflexivity.
      exfalso. apply Hzero. exact Heq.
  - unfold aggregationPipeline. rewrite app_assoc. apply last_two.
Qed.

Lemma zero_matches_page_witness :
  mongoosePagination no_date
    (default_request
       (fixed_model [ {| row_metadata := None; row_data := ([] : list unit) |} ])) []
  = (inr {| metadata :=
              {| total := JS.of_Z 0;
                 page := JS.of_Z 1;
                 max := JS.of_Z 10;
                 next := false;
                 previous := false;
                 totalPages := JS.of_Z 0 |};
            data := [] |},
     [] ++ [aggregationPipeline no_date
              (default_request
                 (fixed_model [ {| row_metadata := None;
                                   row_data := ([] : list unit) |} ]))])
  /\ last (aggregationPipeline no_date
             (default_request
                (fixed_model [ {| row_metadata := None;
                                  row_data := ([] : list unit) |} ])))
     = Some (SUnwind "$metadata" true).
Proof.
  exact (zero_matches_page unit no_date
           (default_request
              (fixed_model [ {| row_metadata := None; row_data := [] |} ]))
           [] [ {| row_metadata := None; row_data := [] |} ]
           eq_refl eq_refl eq_refl eq_refl eq_refl).
Defined.

(** ** The pipeline on the storage engine *)

Section OnEngine.

Variable T : Type.
Variable matches : gmap string Condition -> T -> bool.
Variable sort_le : list (string * Z) -> T -> T -> bool.
Variable project : gmap string bool -> T -> T.
Variable other : string -> list T -> JsError + list T.

Lemma split_facet_step (stage : PipelineStage) (rest : list PipelineStage) :
  (2 <= length rest)%nat ->
  split_facet (stage :: rest) =
    match split_facet rest with
    | Some (prefix, stages, preserve) => Some (stage :: prefix, stages, preserve)
    | None => None
    end.
Proof.
  intros Hlen. destruct rest as [|r1 [|r2 rest]]; simpl in Hlen; try lia.
  cbn [split_facet].
  repeat match goal with
    | |- context [match ?x with _ => _ end] =>
        first [is_var x | fail 1]; destruct x
    end; reflexivity.
Qed.

(** The engine reads the pipelines of the shape the module builds. *)
Lemma split_facet_tail (prefix stages : list PipelineStage) (preserve : bool) :
  split_facet
    (prefix ++ [ SFacet [ ("metadata"%string, [SCount "total"]);
                          ("data"%string, stages) ];
                 SUnwind "$metadata" preserve ])
  = Some (prefix, stages, preserve).
Proof.
  induction prefix as [|stage prefix IH]; [reflexivity|].
  rewrite <- app_comm_cons, split_facet_step, IH; [reflexivity|].
  rewrite length_app. simpl. lia.
Qed.

Lemma run_stages_app (a b : list PipelineStage) (docs : list T) :
  run_stages T matches sort_le project other (a ++ b) docs =
    match run_stages T matches sort_le project other a docs with
    | inr docs' => run_stages T matches sort_le project other b docs'
    | inl e => inl e
    end.
Proof.
  revert docs. induction a as [|stage a IH]; intros docs; simpl; [reflexivity|].
  destruct (run_stage _ _ _ _ _ stage docs); [reflexivity | apply IH].
Qed.

Lemma is_integer_inject_Z (z : Z) : is_integer (inject_Z z) = true.
Proof. unfold is_integer. rewrite Qfloor_Z. apply Qeq_bool_refl. Qed.

Lemma run_skip (z : Z) (docs : list T) :
  0 <= z ->
  run_stage T matches sort_le project other (SSkip (JS.of_Z z)) docs
  = inr (drop (Z.to_nat z) docs).
Proof.
  intros Hz. unfold run_stage, JS.of_Z.
  rewrite is_integer_inject_Z, Qfloor_Z.
  destruct (Z.leb_spec 0 z); [reflexivity | lia].
Qed.

Lemma run_limit (z : Z) (docs : list T) :
  1 <= z ->
  run_stage T matches sort_le project other (SLimit (JS.of_Z z)) docs
  = inr (take (Z.to_nat z) docs).
Proof.
  intros Hz. unfold run_stage, JS.of_Z.
  rewrite is_integer_inject_Z, Qfloor_Z.
  destruct (Z.ltb_spec 0 z); [reflexivity | lia].
Qed.

Lemma run_sort (by_ : list (string * Z)) (docs : list T) :
  run_stage T matches sort_le project other (SSort by_) docs
  = inr (sort_documents T (sort_le by_) docs).
Proof. reflexivity. Qed.

Lemma run_project (fields : gmap string bool) (docs : list T) :
  run_stage T matches sort_le project other (SProject fields) docs
  = inr (map (project fields) docs).
Proof. reflexivity. Qed.

(** What the engine answers to the pipeline of a valid request, once the
    match and the caller's stages have given [docs]. *)
Lemma engine_answer (Date_parse : string -> number) (options : PaginationOptions T)
    (collection docs : list T) (p m : Z) :
  page_of options = JS.of_Z p -> 1 <= p ->
  max_of options = JS.of_Z m -> 1 <= m ->
  run_stages T matches sort_le project other
    (SMatch (combinedFilter Date_parse options) :: default [] (o_pipeline options))
    collection = inr docs ->
  engine_aggregate T matches sort_le project other collection
    (aggregationPipeline Date_parse options)
  = inr (run_unwind T true (run_count T docs)
           ((if has_keys (default ∅ (o_extract options))
             then map (project (default ∅ (o_extract options))) else id)
              (take (Z.to_nat m)
                 (drop (Z.to_nat ((p - 1) * m))
                    (if default true (o_sort options)
                     then sort_documents T (sort_le [("createdAt"%string, -1)]) docs
                     else docs))))).
Proof.
  intros Hp Hp1 Hm Hm1 Hdocs.
  unfold engine_aggregate, aggregationPipeline.
  rewrite app_assoc, split_facet_tail.
  change ([SMatch (combinedFilter Date_parse options)] ++ default [] (o_pipeline options))
    with (SMatch (combinedFilter Date_parse options) :: default [] (o_pipeline options)).
  rewrite Hdocs, (skip_of_valid T options p m Hp Hm), Hm.
  rewrite run_stages_app.
  assert (0 <= (p - 1) * m) as Hskip by nia.
  destruct (default true (o_sort options));
    destruct (has_keys (default ∅ (o_extract options)));
    cbn [run_stages app];
    repeat (first [ rewrite run_sort | rewrite run_project
                  | rewrite run_skip by assumption
                  | rewrite run_limit by assumption ];
            cbn beta iota);
    reflexivity.
Qed.

(** When no document reaches the facet, the engine answers one row without
    a count and without a record. *)
Lemma engine_zero_matches (Date_parse : string -> number)
    (options : PaginationOptions T) (collection : list T) (p m : Z) :
  page_of options = JS.of_Z p -> 1 <= p ->
  max_of options = JS.of_Z m -> 1 <= m ->
  run_stages T matches sort_le project other
    (SMatch (combinedFilter Date_parse options) :: default [] (o_pipeline options))
    collection = inr [] ->
  engine_aggregate T matches sort_le project other collection
    (aggregationPipeline Date_parse options)
  = inr [ {| row_metadata := None; row_data := [] |} ].
Proof.
  intros Hp Hp1 Hm Hm1 Hdocs.
  rewrite (engine_answer Date_parse options collection [] p m Hp Hp1 Hm Hm1 Hdocs).
  cbn [run_count run_unwind]. do 3 f_equal.
  destruct (default true (o_sort options));
    destruct (has_keys (default ∅ (o_extract options)));
    cbn [sort_documents foldr]; rewrite drop_nil, take_nil; reflexivity.
Qed.

End OnEngine.



(** ** Worked examples *)

(** [Number] on the strings of the test suite and around them. *)
Example Number_integer : JS.Number "42" = Fin 42.
Proof. reflexivity. Qed.

Example Number_empty : JS.Number "" = Fin 0.
Proof. reflexivity. Qed.

Example Number_signed_exponent : JS.Number " -1.5e1 " = Fin (-15).
Proof. vm_compute. reflexivity. Qed.

Example Number_hexadecimal : JS.Number "0x1F" = Fin 31.
Proof. vm_compute. reflexivity. Qed.

Example Number_word : JS.Number "high" = NaN.
Proof. reflexivity. Qed.

Example Number_boolean_word : JS.Number "true" = NaN.
Proof. reflexivity. Qed.

Example Number_trailing_text : JS.Number "12px" = NaN.
Proof. reflexivity. Qed.

Example Number_signed_hexadecimal : JS.Number "-0x1" = NaN.
Proof. reflexivity. Qed.

Example Number_rounds_to_double :
  JS.Number "9007199254740993" = Fin 9007199254740992.
Proof. vm_compute. reflexivity. Qed.

Example Number_tenth : JS.Number "0.1" = Fin (3602879701896397 # 36028797018963968).
Proof. vm_compute. reflexivity. Qed.

Example Number_overflow : JS.Number "1e400" = Infinity false.
Proof. vm_compute. reflexivity. Qed.

(** U+00A0 (bytes C2 A0) and U+FEFF (bytes EF BB BF) are white space. *)
Example Number_no_break_space :
  JS.Number (String "194" (String "160" EmptyString)) = Fin 0.
Proof. vm_compute. reflexivity. Qed.

Example Number_byte_order_mark :
  JS.Number (String "239" (String "187" (String "191" (String "7" EmptyString))))
  = Fin 7.
Proof. vm_compute. reflexivity. Qed.

(** No condition is stored under the key [__proto__]. *)
Example processFilters_proto (entries : list (string * option string)) :
  processFilters (Some entries) !! "__proto__"%string = None.
Proof. unfold processFilters. now rewrite fold_step_proto. Qed.

(** The filters [{ priority: "high", completed: "false" }] of the test
    suite. *)
Example processFilters_tasks :
  processFilters (Some [("priority", Some "high"); ("completed", Some "false")]%string)
  = <[ "completed"%string := CBool false ]>
      {[ "priority"%string := CRegex "high" "i" ]}.
Proof. reflexivity. Qed.

(** The default request on sixteen documents: ten records, a next page, two
    pages. *)
Example default_request_page :
  fst (mongoosePagination no_date
         (default_request (numbered_model (seq 1 16))) [])
  = inr {| metadata :=
             {| total := Fin 16; page := Fin 1; max := Fin 10;
                next := true; previous := false; totalPages := Fin 2 |};
           data := [16; 15; 14; 13; 12; 11; 10; 9; 8; 7]%nat |}.
Proof. vm_compute. reflexivity. Qed.

(** With [page: 0] the engine is reached, with a negative skip that it
    refuses: the rejection is that of the storage. *)
Example page_zero_on_engine :
  mongoosePagination no_date
    (page_request (numbered_model (seq 1 16)) (Some (Fin 0)) None) []
  = (inl (engine_error "invalid argument to $skip"),
     [aggregationPipeline no_date
        (page_request (numbered_model (seq 1 16)) (Some (Fin 0)) None)]).
Proof. vm_compute. reflexivity. Qed.

(** With [max: 0] and a storage that answers without a count, the page has
    [totalPages = NaN]. *)
Example max_zero_on_fixed_storage :
  fst (mongoosePagination no_date
         (page_request (@fixed_model unit []) None (Some (Fin 0))) [])
  = inr {| metadata :=
             {| total := Fin 0; page := Fin 1; max := Fin 0;
                next := false; previous := false; totalPages := NaN |};
           data := [] |}.
Proof. reflexivity. Qed.

(** * Further properties of the module *)

(** ** The orchestrator: rejections, page counts, degenerate page sizes *)

(** X1: a rejection of [Model.aggregate] is the rejection of the call, with
    the same error value: the function neither catches it, nor wraps it, nor
    calls the storage a second time. *)
Theorem storage_rejection_propagates (T : Type) (Date_parse : string -> number)
    (options : PaginationOptions T) (log : list (list PipelineStage))
    (e : JsError) :
  aggregate (Model options) (aggregationPipeline Date_parse options) = inl e ->
  mongoosePagination Date_parse options log
  = (inl e, log ++ [aggregationPipeline Date_parse options]).
Proof.
  intros He. now rewrite mongoosePagination_run, He.
Qed.

Lemma storage_rejection_propagates_witness :
  mongoosePagination no_date
    (default_request
       (@failing_model unit {| name := "MongoNetworkError"; message := "timeout" |}))
    []
  = (inl {| name := "MongoNetworkError"; message := "timeout" |},
     [] ++ [aggregationPipeline no_date
              (default_request
                 (@failing_model unit
                    {| name := "MongoNetworkError"; message := "timeout" |}))]).
Proof.
  exact (storage_rejection_propagates unit no_date
           (default_request
              (failing_model {| name := "MongoNetworkError"; message := "timeout" |}))
           [] {| name := "MongoNetworkError"; message := "timeout" |} eq_refl).
Defined.






(** X4: when no date is supplied and [filters] is absent or has no entry,
    the composed filter is the caller's base filter as it stands, in global
    search mode as in field mode. *)
Theorem combinedFilter_without_options (T : Type) (Date_parse : string -> number)
    (options : PaginationOptions T) :
  truthy (o_startDate options) = false ->
  truthy (o_endDate options) = false ->
  default [] (o_filters options) = [] ->
  combinedFilter Date_parse options = default ∅ (o_filter options).
Proof.
  intros Hs He Hf. unfold combinedFilter, createDateFilter.
  rewrite Hs, He. cbn.
  destruct (o_filters options) as [entries|]; cbn in Hf; [subst entries|];
    destruct (default false (o_globalSearch options)); cbn;
    now rewrite !(left_id_L ∅ (∪)).
Qed.

Lemma combinedFilter_without_options_witness :
  combinedFilter no_date
    (filter_request (@fixed_model unit []) (Some []) (Some true) (Some ""%string) None)
  = ∅.
Proof.
  exact (combinedFilter_without_options unit no_date
           (filter_request (@fixed_model unit []) (Some []) (Some true)
              (Some ""%string) None)
           eq_refl eq_refl eq_refl).
Defined.

(** ** The field filter processor: keys, values, order *)

Lemma fold_step_is_Some (entries : list (string * option string))
    (query : gmap string Condition) (k : string) :
  is_Some
    (fold_left
       (fun query '(key, value) =>
          match value with
          | None => query
          | Some v => assign key (coerce v) query
          end)
       entries query !! k)
  <-> is_Some (query !! k)
      \/ (k <> "__proto__"%string /\ exists v, (k, Some v) ∈ entries).
Proof.
  revert query. induction entries as [|[key value] entries IH]; intros query.
  - simpl. split; [now left|].
    intros [H|[_ [v Hv]]]; [exact H | inversion Hv].
  - simpl. rewrite IH. destruct value as [v|].
    + destruct (decide (key = k)) as [->|Hne].
      * destruct (decide (k = "__proto__"%string)) as [->|Hk].
        -- rewrite lookup_assign_proto. split.
           ++ intros [H|[Hp _]]; [now left | contradiction].
           ++ intros [H|[Hp _]]; [now left | contradiction].
        -- rewrite lookup_assign_eq by exact Hk. split.
           ++ intros _. right. split; [exact Hk|]. exists v. left.
           ++ intros _. left. eauto.
      * rewrite lookup_assign_ne by exact Hne. split.
        -- intros [H|[Hk [w Hw]]]; [now left|].
           right. split; [exact Hk|]. exists w. now right.
        -- intros [H|[Hk [w Hw]]]; [now left|].
           apply elem_of_cons in Hw as [Heq|Hw]; [congruence|].
           right. split; [exact Hk|]. now exists w.
    + split.
      * intros [H|[Hk [w Hw]]]; [now left|].
        right. split; [exact Hk|]. exists w. now right.
      * intros [H|[Hk [w Hw]]]; [now left|].
        apply elem_of_cons in Hw as [Heq|Hw]; [congruence|].
        right. split; [exact Hk|]. now exists w.
Qed.

Lemma fold_step_values (P : Condition -> Prop)
    (entries : list (string * option string)) (query : gmap string Condition) :
  (forall v, P (coerce v)) ->
  (forall k c, query !! k = Some c -> P c) ->
  forall k c,
    fold_left
      (fun query '(key, value) =>
         match value with
         | None => query
         | Some v => assign key (coerce v) query
         end)
      entries query !! k = Some c ->
    P c.
Proof.
  intros Hcoerce. revert query.
  induction entries as [|[key value] entries IH]; intros query Hquery k c.
  - apply Hquery.
  - simpl. apply IH. intros k' c'. destruct value as [v|]; [|apply Hquery].
    unfold assign. destruct (String.eqb key "__proto__"); [apply Hquery|].
    destruct (decide (key = k')) as [->|Hne].
    + rewrite lookup_insert_eq. intros [= <-]. apply Hcoerce.
    + rewrite lookup_insert_ne by exact Hne. apply Hquery.
Qed.

(** X5: the keys of the query of [processFilters] are the keys, other than
    [__proto__], of the entries whose value is defined: an entry holding
    [undefined] adds no key, an entry named [__proto__] adds none either
    (the assignment reaches the prototype setter), every other entry adds
    its own, and no other key appears. *)
Theorem processFilters_keys (entries : list (string * option string)) (k : string) :
  is_Some (processFilters (Some entries) !! k)
  <-> k <> "__proto__"%string /\ exists v, (k, Some v) ∈ entries.
Proof.
  unfold processFilters. rewrite fold_step_is_Some, lookup_empty.
  split; [|now right].
  intros [H|H]; [now apply is_Some_None in H | exact H].
Qed.

(** X6: every condition of the query of [processFilters] is a boolean, a
    number that is not [NaN], or a pattern with the option ["i"] on a string
    that [Number] does not read: no [NaN] ever reaches the filter. *)
Theorem processFilters_values (filters : option (list (string * option string)))
    (k : string) (c : Condition) :
  processFilters filters !! k = Some c ->
  (exists b, c = CBool b)
  \/ (exists n, c = CNumber n /\ JS.isNaN n = false)
  \/ (exists v, c = CRegex v "i" /\ JS.isNaN (JS.Number v) = true).
Proof.
  destruct filters as [entries|]; [|cbn; rewrite lookup_empty; discriminate].
  unfold processFilters. revert k c. apply fold_step_values.
  - intros v. unfold coerce.
    destruct (String.eqb v "true" || String.eqb v "false")%bool; [eauto|].
    destruct (JS.isNaN (JS.Number v)) eqn:Hnan; cbn; eauto 6.
  - intros k c. now rewrite lookup_empty.
Qed.

Lemma processFilters_values_witness :
  (exists b, CNumber (Fin 12) = CBool b)
  \/ (exists n, CNumber (Fin 12) = CNumber n /\ JS.isNaN n = false)
  \/ (exists v, CNumber (Fin 12) = CRegex v "i" /\ JS.isNaN (JS.Number v) = true).
Proof.
  exact (processFilters_values
           (Some [("weight", Some "12"); ("title", None)]%string)
           "weight" (CNumber (Fin 12)) eq_refl).
Defined.

(** X7: the query of [processFilters] does not depend on the order in which
    the properties of [filters] are listed (the keys of an object being
    distinct). *)
Theorem processFilters_order_independent
    (entries entries' : list (string * option string)) :
  NoDup entries.*1 ->
  entries ≡ₚ entries' ->
  processFilters (Some entries) = processFilters (Some entries').
Proof.
  intros Hnd Hperm.
  assert (NoDup entries'.*1) as Hnd'.
  { now rewrite <- Hperm. }
  apply map_eq. intros k.
  destruct (processFilters (Some entries) !! k) as [c|] eqn:Hk.
  - assert (is_Some (processFilters (Some entries) !! k)) as Hsome by eauto.
    unfold processFilters in Hsome.
    rewrite fold_step_is_Some, lookup_empty in Hsome.
    destruct Hsome as [Hsome|[Hproto [v Hv]]]; [now apply is_Some_None in Hsome|].
    rewrite (processFilters_entry _ _ _ Hnd Hv Hproto) in Hk.
    rewrite <- Hk. symmetry. apply processFilters_entry; [exact Hnd'| |exact Hproto].
    now rewrite <- Hperm.
  - destruct (processFilters (Some entries') !! k) as [c|] eqn:Hk'; [|reflexivity].
    assert (is_Some (processFilters (Some entries') !! k)) as Hsome by eauto.
    unfold processFilters in Hsome.
    rewrite fold_step_is_Some, lookup_empty in Hsome.
    destruct Hsome as [Hsome|[Hproto [v Hv]]]; [now apply is_Some_None in Hsome|].
    rewrite <- Hperm in Hv.
    rewrite (processFilters_entry _ _ _ Hnd Hv Hproto) in Hk. discriminate.
Qed.

Lemma processFilters_order_independent_witness :
  processFilters (Some [("priority", Some "high"); ("completed", Some "false")]%string)
  = processFilters (Some [("completed", Some "false"); ("priority", Some "high")]%string).
Proof.
  apply (processFilters_order_independent
           [("priority", Some "high"); ("completed", Some "false")]%string
           [("completed", Some "false"); ("priority", Some "high")]%string).
  - apply (bool_decide_unpack _). vm_compute. reflexivity.
  - apply Permutation_swap.
Defined.

(** ** The global search query builder: shape of the query *)

(** X8: whatever [createGlobalSearchQuery] gives has [$or] as its only key,
    and the list under [$or] is never empty (the builder returns an empty
    query instead); each alternative is a one-key object holding the raw
    string of an entry, not empty, as a pattern: no value is read as a
    boolean or a number in this mode. *)
Theorem createGlobalSearchQuery_shape
    (filters : option (list (string * option string))) (k : string) (c : Condition) :
  createGlobalSearchQuery filters !! k = Some c ->
  k = "$or"%string
  /\ exists alternatives : list (gmap string Condition),
       c = COr alternatives
       /\ alternatives <> []
       /\ Forall
            (fun a =>
               exists key v,
                 v <> ""%string
                 /\ (key, Some v) ∈ default [] filters
                 /\ a = {[ key := CRegex v "i" ]})
            alternatives.
Proof.
  destruct filters as [entries|]; [|cbn; rewrite lookup_empty; discriminate].
  unfold createGlobalSearchQuery.
  set (conditions :=
         map (fun '(key, value) =>
                ({[ key := CRegex (default ""%string value) "i" ]} : gmap string Condition))
             (List.filter (fun '(_, value) => truthy value) entries)).
  destruct (Nat.eqb_spec (length conditions) 0) as [Hlen|Hlen];
    [rewrite lookup_empty; discriminate|].
  intros Hk. apply lookup_singleton_Some in Hk as [<- <-].
  split; [reflexivity|]. exists conditions. split; [reflexivity|]. split.
  - intros Hnil. now rewrite Hnil in Hlen.
  - apply List.Forall_forall. intros a Ha.
    apply in_map_iff in Ha as ([key value] & <- & Hin).
    apply filter_In in Hin as [Hin Htruthy].
    destruct value as [v|]; [|discriminate].
    exists key, v. split; [now apply truthy_Some|].
    split; [now apply list_elem_of_In | reflexivity].
Qed.

Lemma createGlobalSearchQuery_shape_witness :
  "$or"%string = "$or"%string
  /\ exists alternatives : list (gmap string Condition),
       COr [ {[ "title"%string := CRegex "true" "i" ]} ] = COr alternatives
       /\ alternatives <> []
       /\ Forall
            (fun a =>
               exists key v,
                 v <> ""%string
                 /\ (key, Some v)
                    ∈ default [] (Some [("title", Some "true"); ("tag", Some "")]%string)
                 /\ a = {[ key := CRegex v "i" ]})
            alternatives.
Proof.
  exact (createGlobalSearchQuery_shape
           (Some [("title", Some "true"); ("tag", Some "")]%string)
           "$or" (COr [ {[ "title"%string := CRegex "true" "i" ]} ]) eq_refl).
Defined.

(** ** The date-range filter builder: the inclusive end bound *)

Lemma TimeClip_of_Z (z : Z) :
  JSDate.TimeClip (JS.of_Z z)
  = if Z.abs z <=? 8640000000000000 then JS.of_Z z else NaN.
Proof.
  unfold JSDate.TimeClip, JS.of_Z.
  assert (Qle_bool (Qabs (inject_Z z)) (inject_Z 8640000000000000)
          = (Z.abs z <=? 8640000000000000)) as ->.
  { unfold Qle_bool, Qabs, inject_Z. cbn [Qnum Qden].
    now rewrite !Z.mul_1_r. }
  destruct (Z.abs z <=? 8640000000000000); [|reflexivity].
  rewrite Qceiling_Z, Qfloor_Z. now destruct (JS.Qneg (inject_Z z)).
Qed.

(** X9: in inclusive mode the end bound is [$lte] the parsed end date moved
    by 86 400 000 ms, whatever the start date; when that time leaves the
    range of time values (8.64e15 ms on each side of the epoch) the bound is
    an invalid date, and nothing is raised. *)
Theorem inclusive_end_bound (Date_parse : string -> number)
    (startDate : option string) (endDate : string) (t : Z) :
  endDate <> ""%string ->
  Date_parse endDate = JS.of_Z t ->
  exists bounds : gmap string Date,
    createdAt (createDateFilter Date_parse startDate (Some endDate) false)
    = Some bounds
    /\ bounds !! "$lte"%string
       = Some {| getTime :=
                   if Z.abs (t + 86400000) <=? 8640000000000000
                   then JS.of_Z (t + 86400000) else NaN |}
    /\ bounds !! "$lt"%string = None.
Proof.
  intros He Ht. apply truthy_Some in He.
  unfold createDateFilter. rewrite He, Bool.andb_false_r. cbn [fmap option_fmap option_map].
  cbn [createdAt default fst snd].
  unfold JSDate.of_number.
  change (getTime (JSDate.of_string Date_parse endDate)) with (Date_parse endDate).
  change (24 * 60 * 60 * 1000) with 86400000.
  rewrite Ht, add_of_Z, TimeClip_of_Z.
  destruct (truthy startDate); [destruct startDate as [s|]|];
    cbn [fmap option_fmap option_map id];
    eexists; (split; [reflexivity|]);
    rewrite ?spread_empty, ?spread_singleton;
    rewrite ?lookup_insert_ne by discriminate;
    (split; [apply lookup_singleton_eq | now apply lookup_singleton_ne]).
Qed.

Lemma inclusive_end_bound_witness :
  exists bounds : gmap string Date,
    createdAt
      (createDateFilter
         (fun s => if String.eqb s "2024-01-20" then JS.of_Z 1705708800000 else NaN)
         (Some "2024-01-15"%string) (Some "2024-01-20"%string) false)
    = Some bounds
    /\ bounds !! "$lte"%string
       = Some {| getTime :=
                   if Z.abs (1705708800000 + 86400000) <=? 8640000000000000
                   then JS.of_Z (1705708800000 + 86400000) else NaN |}
    /\ bounds !! "$lt"%string = None.
Proof.
  apply (inclusive_end_bound
           (fun s => if String.eqb s "2024-01-20" then JS.of_Z 1705708800000 else NaN)
           (Some "2024-01-15"%string) "2024-01-20" 1705708800000).
  - discriminate.
  - reflexivity.
Defined.

(** X10: an end date that the parser does not read gives an invalid date as
    the end bound, in both modes: adding a day to an invalid time keeps it
    invalid, and the builder raises nothing. *)
Theorem unreadable_end_date (Date_parse : string -> number)
    (startDate : option string) (endDate : string) (searchBetweenDates : bool) :
  endDate <> ""%string ->
  Date_parse endDate = NaN ->
  exists bounds : gmap string Date,
    createdAt (createDateFilter Date_parse startDate (Some endDate) searchBetweenDates)
    = Some bounds
    /\ bounds !! (if searchBetweenDates then "$lt" else "$lte")%string
       = Some {| getTime := NaN |}.
Proof.
  intros He Ht. apply truthy_Some in He.
  unfold createDateFilter. rewrite He, Bool.andb_false_r. cbn [fmap option_fmap option_map].
  cbn [createdAt default fst snd].
  unfold JSDate.of_number.
  change (getTime (JSDate.of_string Date_parse endDate)) with (Date_parse endDate).
  replace (JSDate.of_string Date_parse endDate) with {| getTime := NaN |}
    by (unfold JSDate.of_string; now rewrite Ht).
  rewrite Ht.
  destruct searchBetweenDates;
    (destruct (truthy startDate); [destruct startDate as [s|]|]);
    cbn [fmap option_fmap option_map id JS.add JSDate.TimeClip];
    eexists; (split; [reflexivity|]);
    rewrite ?spread_empty, ?spread_singleton;
    rewrite ?lookup_insert_ne by discriminate;
    apply lookup_singleton_eq.
Qed.

Lemma unreadable_end_date_witness :
  exists bounds : gmap string Date,
    createdAt (createDateFilter no_date (Some "InvalidDate"%string)
                 (Some "InvalidDate"%string) false)
    = Some bounds
    /\ bounds !! "$lte"%string = Some {| getTime := NaN |}.
Proof.
  apply (unreadable_end_date no_date (Some "InvalidDate"%string) "InvalidDate" false).
  - discriminate.
  - reflexivity.
Defined.

(** ** Values made of digits *)

Lemma round_half_even_1 (a : Z) : JS.round_half_even a 1 = a.
Proof.
  unfold JS.round_half_even. now rewrite Z.mod_1_r, Z.div_1_r.
Qed.

Lemma Qred_scaled (z c : Z) : 0 < c -> Qred (z * c # Z.to_pos c) = z # 1.
Proof.
  intros Hc. transitivity (Qred (z # 1)).
  - apply Qred_complete. unfold Qeq. cbn [Qnum Qden].
    rewrite Z2Pos.id by exact Hc. lia.
  - apply Qcanon.Qred_identity. cbn [Qnum Qden]. apply Z.gcd_1_r.
Qed.

(** The integers up to 2^53 are doubles: rounding leaves them as they
    are. *)
Lemma round_double_Z (z : Z) :
  0 <= z < 2 ^ 53 -> JS.round_double (inject_Z z) = JS.of_Z z.
Proof.
  intros [Hz0 Hz]. unfold JS.round_double. cbn [Qnum Qden inject_Z].
  rewrite Z.abs_eq by exact Hz0.
  destruct (Z.eqb_spec z 0) as [->|Hne]; [reflexivity|].
  replace (z <? 0) with false by (symmetry; apply Z.ltb_ge; lia).
  pose proof (Z.log2_spec z ltac:(lia)) as [Hlow Hhigh].
  pose proof (Z.log2_nonneg z) as Hl0.
  assert (Z.log2 z < 53) as Hl by (apply Z.log2_lt_pow2; lia).
  assert (JS.floor_log2 z 1 = Z.log2 z) as ->.
  { unfold JS.floor_log2. change (Z.log2 1) with 0. rewrite Z.sub_0_r.
    replace (0 <=? Z.log2 z) with true by (symmetry; apply Z.leb_le; lia).
    now replace (1 * 2 ^ Z.log2 z <=? z) with true
      by (symmetry; apply Z.leb_le; lia). }
  replace (1024 <=? Z.log2 z) with false by (symmetry; apply Z.leb_gt; lia).
  rewrite Z.max_l by lia.
  destruct (Z.leb_spec 0 (Z.log2 z - 52)) as [Hge|Hlt].
  - replace (Z.log2 z - 52) with 0 by lia.
    change (1 * 2 ^ 0) with 1. rewrite round_half_even_1.
    change (2 ^ 0) with 1. rewrite Z.mul_1_r.
    replace (2 ^ 1024 <=? z) with false; [reflexivity|].
    symmetry. apply Z.leb_gt.
    apply Z.lt_le_trans with (2 ^ 53); [exact Hz|].
    apply Z.pow_le_mono_r; lia.
  - rewrite round_half_even_1. unfold JS.of_Z, inject_Z. f_equal.
    apply Qred_scaled. apply Z.pow_pos_nonneg; lia.
Qed.

Lemma digit_range (c d : Z) :
  JS.digit_value 10 c = Some d -> 48 <= c <= 57 /\ d = c - 48.
Proof.
  unfold JS.digit_value.
  destruct (Z.leb_spec 48 c), (Z.leb_spec c 57); cbn [andb];
    try (destruct (Z.ltb_spec (c - 48) 10); intros [= <-]; lia);
    destruct (Z.leb_spec 97 c), (Z.leb_spec c 102); cbn [andb];
    try (destruct (Z.ltb_spec (c - 87) 10); intros [= <-]; lia);
    destruct (Z.leb_spec 65 c), (Z.leb_spec c 70); cbn [andb];
    try (destruct (Z.ltb_spec (c - 55) 10); intros [= <-]; lia);
    discriminate.
Qed.

Lemma digit_not_white (c : Z) : 48 <= c <= 57 -> JS.is_white_space c = false.
Proof.
  intros Hc. unfold JS.is_white_space.
  repeat match goal with
    | |- context [?a <=? ?b] => destruct (Z.leb_spec a b); try lia
    | |- context [?a =? ?b] => destruct (Z.eqb_spec a b); try lia
    end; reflexivity.
Qed.

Lemma digit_code_ne (c : Z) (a : ascii) :
  48 <= c <= 57 ->
  (JS.code a <? 48) || (57 <? JS.code a) = true ->
  (c =? JS.code a) = false.
Proof.
  intros Hc Ha. apply Z.eqb_neq. intros ->.
  apply Bool.orb_true_iff in Ha as [Ha|Ha]; apply Z.ltb_lt in Ha; lia.
Qed.

Lemma read_digits_all (l : list Z) (acc count : Z) :
  Forall (fun c => is_Some (JS.digit_value 10 c)) l ->
  JS.read_digits 10 l acc count
  = (fold_left (fun a c => a * 10 + (c - 48)) l acc,
     count + Z.of_nat (length l), []).
Proof.
  intros Hl. revert acc count.
  induction Hl as [|c l [d Hd] Hl IH]; intros acc count.
  - cbn. do 2 f_equal. lia.
  - cbn [JS.read_digits fold_left length]. rewrite Hd, IH.
    destruct (digit_range c d Hd) as [_ ->].
    do 2 f_equal. lia.
Qed.

Lemma fold_digits_nonneg (l : list Z) (acc : Z) :
  Forall (fun c => 48 <= c <= 57) l ->
  0 <= acc ->
  0 <= fold_left (fun a c => a * 10 + (c - 48)) l acc.
Proof.
  intros Hl. revert acc.
  induction Hl as [|c l Hc _ IH]; intros acc Hacc; [exact Hacc|].
  cbn [fold_left]. apply IH. lia.
Qed.

Lemma trim_no_white (l : list Z) :
  Forall (fun c => JS.is_white_space c = false) l -> JS.trim l = l.
Proof.
  intros Hl. unfold JS.trim.
  assert (forall l', Forall (fun c => JS.is_white_space c = false) l' ->
                     JS.trim_start l' = l') as Hstart.
  { intros l' Hl'. destruct Hl' as [|c l' Hc _]; [reflexivity|].
    cbn. now rewrite Hc. }
  rewrite (Hstart l Hl), (Hstart (rev l)); [apply rev_involutive|].
  now apply List.Forall_rev.
Qed.

(** [Number] reads a non-empty string of decimal digits whose value is
    below 2^53 as that value. *)
Lemma Number_digits (v : string) :
  JS.chars v <> [] ->
  Forall (fun c => is_Some (JS.digit_value 10 c)) (JS.chars v) ->
  fold_left (fun a c => a * 10 + (c - 48)) (JS.chars v) 0 < 2 ^ 53 ->
  JS.Number v
  = JS.of_Z (fold_left (fun a c => a * 10 + (c - 48)) (JS.chars v) 0).
Proof.
  unfold JS.Number. generalize (JS.chars v). clear v.
  intros l Hne Hdigits Hbound.
  assert (Forall (fun c => 48 <= c <= 57) l) as Hrange.
  { eapply List.Forall_impl; [|exact Hdigits].
    intros c [d Hd]. now destruct (digit_range c d Hd). }
  assert (0 <= fold_left (fun a c => a * 10 + (c - 48)) l 0) as Hnonneg.
  { apply fold_digits_nonneg; [exact Hrange | lia]. }
  unfold JS.StringToNumber.
  rewrite trim_no_white
    by (eapply List.Forall_impl; [|exact Hrange]; apply digit_not_white).
  destruct l as [|c r]; [contradiction|].
  pose proof (Forall_inv Hrange) as Hc.
  assert (JS.unsigned_decimal (c :: r)
          = JS.of_Z (fold_left (fun a c => a * 10 + (c - 48)) (c :: r) 0)) as Hdec.
  { unfold JS.unsigned_decimal.
    rewrite bool_decide_eq_false_2.
    2:{ change (JS.chars "Infinity") with [73; 110; 102; 105; 110; 105; 116; 121].
        intros [= -> _]. lia. }
    rewrite (read_digits_all _ 0 0 Hdigits).
    cbn [length]. replace (0 + Z.of_nat (S (length r)) + 0 =? 0) with false
      by (symmetry; apply Z.eqb_neq; lia).
    cbn [JS.exponent_part].
    change (Qpower 10 (0 - 0)) with 1%Q. change (10 ^ 0) with 1.
    set (n := fold_left (fun a c => a * 10 + (c - 48)) (c :: r) 0) in *.
    replace (Qmult (inject_Z (n * 1 + 0)) 1) with (inject_Z n)
      by (unfold Qmult, inject_Z; cbn [Qnum Qden Pos.mul]; f_equal; lia).
    apply round_double_Z. split; [exact Hnonneg | exact Hbound]. }
  rewrite !(digit_code_ne c _ Hc) by reflexivity.
  destruct (c =? JS.code "0"); [|exact Hdec].
  destruct r as [|x r']; [exact Hdec|].
  pose proof (Forall_inv (Forall_inv_tail Hrange)) as Hx.
  rewrite !(digit_code_ne x _ Hx) by reflexivity.
  cbn [orb]. exact Hdec.
Qed.

(** X11: a non-empty value made of decimal digits only, whose decimal value
    is below 2^53 (so that it is a double), is always stored as the numeric
    condition of that value, never as a pattern: a field filter cannot
    search a text field for such a string of digits.  (Under the key
    [__proto__] nothing is stored.) *)
Theorem processFilters_digits_are_numbers
    (entries : list (string * option string)) (key value : string) :
  NoDup entries.*1 ->
  (key, Some value) ∈ entries ->
  key <> "__proto__"%string ->
  JS.chars value <> [] ->
  Forall (fun c => is_Some (JS.digit_value 10 c)) (JS.chars value) ->
  fold_left (fun a c => a * 10 + (c - 48)) (JS.chars value) 0 < 2 ^ 53 ->
  processFilters (Some entries) !! key
  = Some (CNumber
            (JS.of_Z (fold_left (fun a c => a * 10 + (c - 48)) (JS.chars value) 0))).
Proof.
  intros Hnd Hin Hkey Hne Hdigits Hbound.
  rewrite (processFilters_entry _ _ _ Hnd Hin Hkey). f_equal.
  unfold coerce. rewrite (Number_digits value Hne Hdigits Hbound).
  cbn [JS.isNaN JS.of_Z negb].
  destruct (String.eqb_spec value "true") as [->|_].
  { exfalso. apply Forall_inv in Hdigits. vm_compute in Hdigits.
    destruct Hdigits as [d Hd]. discriminate Hd. }
  destruct (String.eqb_spec value "false") as [->|_].
  { exfalso. apply Forall_inv in Hdigits. vm_compute in Hdigits.
    destruct Hdigits as [d Hd]. discriminate Hd. }
  reflexivity.
Qed.

Lemma processFilters_digits_are_numbers_witness :
  processFilters (Some [("zip", Some "12345")]%string) !! "zip"%string
  = Some (CNumber (JS.of_Z 12345)).
Proof.
  apply (processFilters_digits_are_numbers [("zip", Some "12345")]%string "zip" "12345").
  - apply (bool_decide_unpack _). vm_compute. reflexivity.
  - apply (bool_decide_unpack _). vm_compute. reflexivity.
  - discriminate.
  - discriminate.
  - repeat constructor; vm_compute; eauto.
  - reflexivity.
Defined.

(** ** Consecutive pages on the storage engine *)

(** X12: on the storage engine, for any request (filters, caller's stages,
    sort and projection as they are), two consecutive pages [p] and [p + 1]
    are two adjacent windows of the same list: once the match and the
    caller's stages have given their documents, the records of page [p]
    followed by those of page [p + 1] are the [2 * max] documents that
    follow the first [(p - 1) * max] (sorted first when [sort] is set,
    projected when [extract] has a key), with none repeated and none left
    out, and the two pages report the same total.  Page numbers, page size
    and skips are integers that a double holds exactly. *)
Theorem consecutive_pages_tile (T : Type)
    (matches : gmap string Condition -> T -> bool)
    (sort_le : list (string * Z) -> T -> T -> bool)
    (project : gmap string bool -> T -> T)
    (other : string -> list T -> JsError + list T)
    (Date_parse : string -> number) (options : PaginationOptions T)
    (collection docs : list T) (p m : Z) :
  Model options = collection_model T matches sort_le project other collection ->
  1 <= p -> p + 1 <= 2 ^ 53 ->
  max_of options = JS.of_Z m -> 1 <= m <= 2 ^ 53 ->
  p * m <= 2 ^ 53 ->
  run_stages T matches sort_le project other
    (SMatch (combinedFilter Date_parse options) :: default [] (o_pipeline options))
    collection = inr docs ->
  exists r1 r2 : PaginationResult T,
    fst (mongoosePagination Date_parse (with_page options (JS.of_Z p)) []) = inr r1
    /\ fst (mongoosePagination Date_parse (with_page options (JS.of_Z (p + 1))) [])
       = inr r2
    /\ data r1 ++ data r2
       = (if has_keys (default ∅ (o_extract options))
          then map (project (default ∅ (o_extract options))) else id)
           (take (Z.to_nat (2 * m))
              (drop (Z.to_nat ((p - 1) * m))
                 (if default true (o_sort options)
                  then sort_documents T (sort_le [("createdAt"%string, -1)]) docs
                  else docs)))
    /\ total (metadata r1) = total (metadata r2).
Proof.
  intros HM Hp _ Hm [Hm1 _] _ Hdocs.
  set (sorted :=
         if default true (o_sort options)
         then sort_documents T (sort_le [("createdAt"%string, -1)]) docs
         else docs).
  set (shown :=
         if has_keys (default ∅ (o_extract options))
         then map (project (default ∅ (o_extract options))) else id).
  assert (forall q : Z, 1 <= q ->
            aggregate (Model (with_page options (JS.of_Z q)))
              (aggregationPipeline Date_parse (with_page options (JS.of_Z q)))
            = inr (run_unwind T true (run_count T docs)
                     (shown (take (Z.to_nat m)
                               (drop (Z.to_nat ((q - 1) * m)) sorted)))))
    as Hanswer.
  { intros q Hq. change (Model (with_page options (JS.of_Z q))) with (Model options).
    rewrite HM. cbn [aggregate collection_model].
    exact (engine_answer T matches sort_le project other Date_parse
             (with_page options (JS.of_Z q)) collection docs q m
             eq_refl Hq Hm Hm1 Hdocs). }
  assert (forall records : list T,
             default [] (row_data <$>
               head (run_unwind T true (run_count T docs) records))
             = records) as Hdata.
  { intros records. now destruct docs. }
  rewrite !mongoosePagination_run.
  rewrite (Hanswer p Hp), (Hanswer (p + 1) ltac:(lia)).
  do 2 eexists. split; [reflexivity|]. split; [reflexivity|].
  cbn [fst data metadata total]. rewrite !Hdata. split.
  2:{ now destruct docs. }
  replace (Z.to_nat ((p + 1 - 1) * m))
    with (Z.to_nat ((p - 1) * m) + Z.to_nat m)%nat by nia.
  rewrite <- drop_drop.
  replace (Z.to_nat (2 * m)) with (Z.to_nat m + Z.to_nat m)%nat by lia.
  rewrite <- take_take_drop.
  unfold shown. destruct (has_keys (default ∅ (o_extract options)));
    [now rewrite map_app | reflexivity].
Qed.

Lemma consecutive_pages_tile_witness :
  exists r1 r2 : PaginationResult nat,
    fst (mongoosePagination no_date
           (with_page
              (page_request (numbered_model [1; 2; 3; 4; 5; 6; 7]%nat)
                 None (Some (JS.of_Z 3)))
              (JS.of_Z 1)) []) = inr r1
    /\ fst (mongoosePagination no_date
              (with_page
                 (page_request (numbered_model [1; 2; 3; 4; 5; 6; 7]%nat)
                    None (Some (JS.of_Z 3)))
                 (JS.of_Z (1 + 1))) []) = inr r2
    /\ data r1 ++ data r2 = [7; 6; 5; 4; 3; 2]%nat
    /\ total (metadata r1) = total (metadata r2).
Proof.
  exact (consecutive_pages_tile nat (fun _ _ => true) (fun _ a b => Nat.leb b a)
           (fun _ d => d) (fun _ docs => inr docs) no_date
           (page_request (numbered_model [1; 2; 3; 4; 5; 6; 7]%nat)
              None (Some (JS.of_Z 3)))
           [1; 2; 3; 4; 5; 6; 7]%nat [1; 2; 3; 4; 5; 6; 7]%nat 1 3
           eq_refl ltac:(lia) ltac:(lia) eq_refl ltac:(lia) ltac:(lia) eq_refl).
Defined.
